(** * data_intake/player_data.py: rookie and team-stats retrieval

    A shallow embedding of [get_rookies] and [get_team_offensive_stats]
    from [src/data_intake/player_data.py].  Each function is a
    straight-line pipeline: one HTTP GET, [raise_for_status], [json()],
    a list comprehension over [data.items()], a [DataFrame], one
    [to_csv] and one [print].  The world the functions act on (network,
    file store, standard output) is threaded through a small state and
    exception monad.  The file store is flat: the [os.makedirs] the
    module runs on import only ensures that [data/raw] exists. *)

From Stdlib Require Import Ascii String ZArith Lia Floats.SpecFloat.
From stdpp Require Import base option list strings gmap pretty.

#[local] Set Warnings "-register-all".

Local Open Scope Z_scope.

(** ** Python values

    [response.json()] yields the Python image of a JSON document:
    [None], [bool], [int] (unbounded), [float], [str], [list], [dict].
    A [dict] is kept as its items in iteration (insertion) order; its
    keys are pairwise distinct, see [dict_wf]. *)

Inductive pyval : Type :=
  | PNone
  | PBool (b : bool)
  | PInt (n : Z)
  | PFloat (f : spec_float)
  | PStr (s : string)
  | PList (l : list pyval)
  | PDict (d : list (string * pyval)).

Abbreviation pydict := (list (string * pyval)).

(** The invariant of a Python [dict]: no key occurs twice. *)
Definition dict_wf (d : pydict) : Prop := NoDup (d.*1).

(** Exceptions the two functions can let escape. *)
Inductive exn : Type :=
  | ConnectionError   (* [requests.get]: no response obtained *)
  | HTTPError         (* [raise_for_status] *)
  | JSONDecodeError   (* [response.json()] *)
  | AttributeError    (* [.items()] / [.get] on a non-dict *)
  | TypeError         (* unhashable operand of [in] on a set *)
  | OSError.          (* [to_csv] cannot open the path *)

(** [d.get(key)] on a dict: the value, or [None] when the key is absent. *)
Fixpoint dict_get (d : pydict) (key : string) : pyval :=
  match d with
  | [] => PNone
  | (k, v) :: rest => if String.eqb k key then v else dict_get rest key
  end.

(** [key in d] on a dict. *)
Fixpoint dict_has (d : pydict) (key : string) : bool :=
  match d with
  | [] => false
  | (k, _) :: rest => String.eqb k key || dict_has rest key
  end.

(** [isinstance(v, dict)]. *)
Definition isinstance_dict (v : pyval) : bool :=
  match v with PDict _ => true | _ => false end.

(** The value of a float compared exactly with an int, as CPython's
    float/int comparison does: [(-1)^s * m * 2^e = n]. *)
Definition float_eq_int (f : spec_float) (n : Z) : bool :=
  match f with
  | S754_zero _ => n =? 0
  | S754_finite s m e =>
      let sm := if s then Z.neg m else Z.pos m in
      if 0 <=? e then sm * 2 ^ e =? n else sm =? n * 2 ^ (- e)
  | S754_infinity _ | S754_nan => false
  end.

(** [v == n] for an [int] literal [n].  [bool] is a subclass of [int]
    ([False == 0], [True == 1]); a float compares by value; every other
    JSON-born value is unequal to an int. *)
Definition py_eq_int (v : pyval) (n : Z) : bool :=
  match v with
  | PInt k => k =? n
  | PBool b => (if b then 1 else 0) =? n
  | PFloat f => float_eq_int f n
  | PNone | PStr _ | PList _ | PDict _ => false
  end.

(** ** Results and the world monad *)

Inductive result (A : Type) : Type :=
  | Ok (a : A)
  | Raise (e : exn).
Arguments Ok {A} a.
Arguments Raise {A} e.

Definition rbind {A B} (r : result A) (k : A → result B) : result B :=
  match r with
  | Ok a => k a
  | Raise e => Raise e
  end.

Notation "'let?' x := r 'in' k" := (rbind r (λ x, k))
  (at level 10, x name, r at level 100, k at level 200,
   format "'let?'  x  :=  r  'in'  '/' k").

(** [v.get(key)]: only a dict has the method among JSON-born values. *)
Definition py_get (v : pyval) (key : string) : result pyval :=
  match v with
  | PDict d => Ok (dict_get d key)
  | _ => Raise AttributeError
  end.

(** [v.items()]. *)
Definition py_items (v : pyval) : result pydict :=
  match v with
  | PDict d => Ok d
  | _ => Raise AttributeError
  end.

(** [v in s] for a set [s] of strings: hashing a list or a dict raises;
    a string is found by equality; nothing else equals a string. *)
Definition py_in (v : pyval) (s : gset string) : result bool :=
  match v with
  | PStr x => Ok (bool_decide (x ∈ s))
  | PList _ | PDict _ => Raise TypeError
  | PNone | PBool _ | PInt _ | PFloat _ => Ok false
  end.

(** ** The world: network, file store, standard output *)

(** What [requests] hands back: the status code and, when the body
    parses as JSON, its Python image. *)
Record Response : Type := mkResponse {
  status_code : Z;
  body : option pyval;
}.

(** [pd.DataFrame(list_of_dicts)]: one row per record, in list order.
    Column dtype inference is pandas' own and is not modelled. *)
Record DataFrame : Type := mkDataFrame { records : list pydict }.

Definition pd_DataFrame (rows : list pydict) : DataFrame :=
  {| records := rows |}.

(** [len(df)]: the number of rows. *)
Definition len (df : DataFrame) : Z := Z.of_nat (length (records df)).

Record World : Type := mkWorld {
  net : string → option Response;  (* the answer a GET of a URL gets *)
  files : gmap string DataFrame;   (* path ↦ frame last written as CSV *)
  denied : gset string;            (* paths that cannot be opened for writing *)
  requested : list string;         (* URLs fetched so far, oldest first *)
  stdout : list string;            (* lines printed so far, oldest first *)
}.

Definition M (A : Type) : Type := World → result A * World.

Definition ret {A} (a : A) : M A := λ w, (Ok a, w).

Definition bind {A B} (m : M A) (k : A → M B) : M B :=
  λ w, match m w with
       | (Ok a, w') => k a w'
       | (Raise e, w') => (Raise e, w')
       end.

Definition lift {A} (r : result A) : M A := λ w, (r, w).

Notation "'let*' x := m 'in' k" := (bind m (λ x, k))
  (at level 10, x name, m at level 100, k at level 200,
   format "'let*'  x  :=  m  'in'  '/' k").
Notation "'run' m 'in' k" := (bind m (λ _, k))
  (at level 10, m at level 100, k at level 200,
   format "'run'  m  'in'  '/' k").

(** [requests.get(url)]. *)
Definition requests_get (url : string) : M Response :=
  λ w,
    let w' := {| net := net w; files := files w; denied := denied w;
                 requested := requested w ++ [url]; stdout := stdout w |} in
    match net w url with
    | Some r => (Ok r, w')
    | None => (Raise ConnectionError, w')
    end.

(** [response.raise_for_status()]: 4xx and 5xx raise. *)
Definition raise_for_status (r : Response) : result unit :=
  if (400 <=? status_code r) && (status_code r <? 600)
  then Raise HTTPError else Ok tt.

(** [response.json()]. *)
Definition json (r : Response) : result pyval :=
  match body r with
  | Some v => Ok v
  | None => Raise JSONDecodeError
  end.

(** [df.to_csv(path, index=False)]: creates or overwrites the file. *)
Definition to_csv (df : DataFrame) (path : string) : M unit :=
  λ w,
    if bool_decide (path ∈ denied w) then (Raise OSError, w)
    else (Ok tt, {| net := net w; files := <[path := df]> (files w);
                    denied := denied w; requested := requested w;
                    stdout := stdout w |}).

(** [print(line)]. *)
Definition print (line : string) : M unit :=
  λ w, (Ok tt, {| net := net w; files := files w; denied := denied w;
                  requested := requested w; stdout := stdout w ++ [line] |}).

(** ** Paths *)

Fixpoint ends_with_sep (s : string) : bool :=
  match s with
  | EmptyString => false
  | String c EmptyString => Ascii.eqb c "/"%char
  | String _ rest => ends_with_sep rest
  end.

(** [os.path.join(a, b)] on a POSIX host. *)
Definition os_path_join (a b : string) : string :=
  if String.prefix "/" b then b
  else if String.eqb a "" || ends_with_sep a then a +:+ b
  else a +:+ "/" +:+ b.

Definition DATA_DIR : string := os_path_join "data" "raw".

(** ** The list comprehension

    [[elt(k, v) for k, v in items if cond(k, v)]]: items are visited in
    order; for each one the condition is evaluated first and the element
    expression only when it holds; the first exception ends the loop. *)
Fixpoint comprehension (cond : string → pyval → result bool)
    (elt : string → pyval → result pydict) (items : pydict)
    : result (list pydict) :=
  match items with
  | [] => Ok []
  | (k, v) :: rest =>
      let? keep := cond k v in
      if keep then
        let? r := elt k v in
        let? rs := comprehension cond elt rest in
        Ok (r :: rs)
      else comprehension cond elt rest
  end.

(** ** get_rookies *)

Definition valid_positions : gset string := {["QB"; "RB"; "WR"; "TE"]}.

(** [player.get("years_exp") == 0 and player.get("position") in valid_positions] *)
Definition rookie_cond (pid : string) (player : pyval) : result bool :=
  let? years_exp := py_get player "years_exp" in
  if py_eq_int years_exp 0 then
    let? position := py_get player "position" in
    py_in position valid_positions
  else Ok false.

(** The dict display of the comprehension, values evaluated top down. *)
Definition rookie_record (pid : string) (player : pyval) : result pydict :=
  let? full_name := py_get player "full_name" in
  let? position := py_get player "position" in
  let? team := py_get player "team" in
  let? college := py_get player "college" in
  let? years_exp := py_get player "years_exp" in
  Ok [("player_id", PStr pid);
      ("full_name", full_name);
      ("position", position);
      ("team", team);
      ("college", college);
      ("years_exp", years_exp)].

Definition rookies_url : string := "https://api.sleeper.app/v1/players/nfl".

(** The path handed to [to_csv]: a plain string literal, not an f-string. *)
Definition rookies_output_path : string :=
  os_path_join DATA_DIR "rookies_{year}.csv".

Definition get_rookies (year : Z) : M DataFrame :=
  let url := rookies_url in
  let* response := requests_get url in
  run lift (raise_for_status response) in
  let* data := lift (json response) in
  let* items := lift (py_items data) in
  let* rookies := lift (comprehension rookie_cond rookie_record items) in
  let df := pd_DataFrame rookies in
  let output_path := rookies_output_path in
  run to_csv df output_path in
  run print ("Saved " +:+ pretty (len df)
             +:+ " rookies (QB, RB, WR, TE) to rookies_" +:+ pretty year
             +:+ ".csv") in
  ret df.

(** ** get_team_offensive_stats *)

(** [isinstance(stats, dict)] *)
Definition team_cond (team : string) (stats : pyval) : result bool :=
  Ok (isinstance_dict stats).

Definition team_record (year : Z) (team : string) (stats : pyval)
    : result pydict :=
  let? offense_rank := py_get stats "offense_rank" in
  let? pass_yards_rank := py_get stats "pass_yds_rank" in
  let? pass_td_rank := py_get stats "pass_td_rank" in
  let? rush_yards_rank := py_get stats "rush_yds_rank" in
  let? rush_td_rank := py_get stats "rush_td_rank" in
  let? rec_yards_rank := py_get stats "rec_yds_rank" in
  let? rec_td_rank := py_get stats "rec_td_rank" in
  let? team_td := py_get stats "td" in
  let? redzone_rank := py_get stats "redzone_rank" in
  let? redzone_pct := py_get stats "redzone_pct" in
  Ok [("team", PStr team);
      ("year", PInt year);
      ("offense_rank", offense_rank);
      ("pass_yards_rank", pass_yards_rank);
      ("pass_td_rank", pass_td_rank);
      ("rush_yards_rank", rush_yards_rank);
      ("rush_td_rank", rush_td_rank);
      ("rec_yards_rank", rec_yards_rank);
      ("rec_td_rank", rec_td_rank);
      ("team_td", team_td);
      ("redzone_rank", redzone_rank);
      ("redzone_pct", redzone_pct)].

Definition team_stats_url (year : Z) : string :=
  "https://api.sleeper.app/v1/stats/nfl/regular/" +:+ pretty year.

Definition team_stats_output_path (year : Z) : string :=
  os_path_join DATA_DIR ("sleeper_team_stats_" +:+ pretty year +:+ ".csv").

Definition get_team_offensive_stats (year : Z) : M DataFrame :=
  let url := team_stats_url year in
  let* response := requests_get url in
  run lift (raise_for_status response) in
  let* data := lift (json response) in
  let* items := lift (py_items data) in
  let* team_stats := lift (comprehension team_cond (team_record year) items) in
  let df := pd_DataFrame team_stats in
  run to_csv df (team_stats_output_path year) in
  run print ("Saved team offensive stats for " +:+ pretty year) in
  ret df.

(** The column [col] of a frame, top to bottom. *)
Definition column (col : string) (df : DataFrame) : list pyval :=
  (λ r, dict_get r col) <$> records df.

(** Whether the comprehension keeps an item (its condition is true). *)
Definition keeps (cond : string → pyval → result bool)
    (e : string * pyval) : bool :=
  match cond e.1 e.2 with Ok true => true | _ => false end.

(** Values that Python's [==] identifies with the int [0]. *)
Definition zero_like (v : pyval) : Prop :=
  v = PInt 0 ∨ v = PBool false ∨ ∃ s, v = PFloat (S754_zero s).

(** ** The shape shared by the two functions *)

Definition pipeline (url path : string)
    (cond : string → pyval → result bool)
    (elt : string → pyval → result pydict)
    (msg : DataFrame → string) : M DataFrame :=
  let* response := requests_get url in
  run lift (raise_for_status response) in
  let* data := lift (json response) in
  let* items := lift (py_items data) in
  let* rows := lift (comprehension cond elt items) in
  let df := pd_DataFrame rows in
  run to_csv df path in
  run print (msg df) in
  ret df.

(** The world a successful run leaves behind. *)
Definition done_world (url path : string) (msg : DataFrame → string)
    (w : World) (df : DataFrame) : World :=
  {| net := net w; files := <[path := df]> (files w);
     denied := denied w; requested := requested w ++ [url];
     stdout := stdout w ++ [msg df] |}.

(** A world whose network answers every URL with [r]. *)
Definition world_of (r : Response) : World :=
  {| net := λ _, Some r; files := ∅; denied := ∅;
     requested := []; stdout := [] |}.

(** The GET of [url] is answered with a 4xx or 5xx status. *)
Definition http_failed (w : World) (url : string) : Prop :=
  ∃ resp, net w url = Some resp ∧ 400 ≤ status_code resp < 600.

(** A player entry the rookie filter is meant to keep: a mapping whose
    [years_exp] compares equal to [0] and whose position is one of the
    four codes. *)
Definition eligible (player : pyval) : Prop :=
  ∃ f, player = PDict f ∧
       py_eq_int (dict_get f "years_exp") 0 = true ∧
       dict_get f "position" ∈ [PStr "QB"; PStr "RB"; PStr "WR"; PStr "TE"].

(** ** Worked inputs *)

(** A player pool of mixed eligibility. *)
Definition players_mixed_items : pydict :=
  [("1", PDict [("full_name", PStr "A B"); ("position", PStr "WR");
                ("years_exp", PInt 0)]);
   ("2", PDict [("position", PStr "K"); ("years_exp", PInt 0)]);
   ("3", PDict [("position", PStr "QB"); ("years_exp", PInt 3)]);
   ("4", PDict [("position", PStr "TE"); ("years_exp", PNone)]);
   ("5", PDict [("team", PStr "KC"); ("position", PStr "RB");
                ("years_exp", PInt 0)])].

Definition players_mixed : pyval := PDict players_mixed_items.

(** What [get_rookies] makes of [players_mixed]. *)
Definition rookies_mixed : DataFrame :=
  pd_DataFrame
    [[("player_id", PStr "1"); ("full_name", PStr "A B");
      ("position", PStr "WR"); ("team", PNone); ("college", PNone);
      ("years_exp", PInt 0)];
     [("player_id", PStr "5"); ("full_name", PNone);
      ("position", PStr "RB"); ("team", PStr "KC"); ("college", PNone);
      ("years_exp", PInt 0)]].

(** A world that answers 500 and already holds both output files. *)
Definition world_500 : World :=
  {| net := λ _, Some (mkResponse 500 (Some players_mixed));
     files := {[ rookies_output_path := rookies_mixed;
                 team_stats_output_path 2024 := pd_DataFrame [] ]};
     denied := ∅; requested := []; stdout := [] |}.

(** A response whose stats carry a year of their own. *)
Definition stats_with_year : pyval :=
  PDict [("KC", PDict [("year", PInt 1999); ("offense_rank", PInt 2)]);
         ("season", PInt 1999);
         ("BUF", PDict [("year", PStr "1999")])].

(** What [get_team_offensive_stats 2024] makes of it. *)
Definition teams_kc_buf : DataFrame :=
  pd_DataFrame
    [[("team", PStr "KC"); ("year", PInt 2024); ("offense_rank", PInt 2);
      ("pass_yards_rank", PNone); ("pass_td_rank", PNone);
      ("rush_yards_rank", PNone); ("rush_td_rank", PNone);
      ("rec_yards_rank", PNone); ("rec_td_rank", PNone);
      ("team_td", PNone); ("redzone_rank", PNone);
      ("redzone_pct", PNone)];
     [("team", PStr "BUF"); ("year", PInt 2024); ("offense_rank", PNone);
      ("pass_yards_rank", PNone); ("pass_td_rank", PNone);
      ("rush_yards_rank", PNone); ("rush_td_rank", PNone);
      ("rec_yards_rank", PNone); ("rec_td_rank", PNone);
      ("team_td", PNone); ("redzone_rank", PNone);
      ("redzone_pct", PNone)]].

(** A response with one stats mapping and one scalar marker. *)
Definition stats_kc_buf : pydict :=
  [("KC", PDict [("offense_rank", PInt 2)]); ("BUF", PStr "bye")].


(** A player pool whose [years_exp] values are not the int [0] and yet
    compare equal to it: JSON [false] and JSON [0.0]. *)
Definition players_zero_like : pyval :=
  PDict [("21", PDict [("position", PStr "QB"); ("years_exp", PBool false)]);
         ("22", PDict [("position", PStr "WR");
                       ("years_exp", PFloat (S754_zero false))]);
         ("23", PDict [("position", PStr "TE")]);
         ("24", PDict [("years_exp", PInt 0)])].

(** [hash(v)] succeeds: every JSON-born value but a list or a dict. *)
Definition hashable (v : pyval) : bool :=
  match v with PList _ | PDict _ => false | _ => true end.

(** A player entry the rookie condition can be evaluated on: a mapping,
    and when its [years_exp] compares equal to [0] (so that the [and]
    goes on to the set membership), a hashable position. *)
Definition rookie_safe (player : pyval) : Prop :=
  ∃ f, player = PDict f ∧
       (py_eq_int (dict_get f "years_exp") 0 = true →
        hashable (dict_get f "position") = true).

(** The columns of the two frames, in the order of the dict displays. *)
Definition rookie_columns : list string :=
  ["player_id"; "full_name"; "position"; "team"; "college"; "years_exp"].

Definition team_columns : list string :=
  ["team"; "year"; "offense_rank"; "pass_yards_rank"; "pass_td_rank";
   "rush_yards_rank"; "rush_td_rank"; "rec_yards_rank"; "rec_td_rank";
   "team_td"; "redzone_rank"; "redzone_pct"].

(** A player pool with a scalar where a player mapping is expected. *)
Definition players_with_scalar : pydict :=
  [("31", PDict [("position", PStr "QB"); ("years_exp", PInt 0)]);
   ("32", PStr "retired");
   ("33", PDict [("position", PStr "RB"); ("years_exp", PInt 0)])].

(** A player pool with a list where a position code is expected. *)
Definition players_with_list_position : pydict :=
  [("41", PDict [("position", PList [PStr "QB"]); ("years_exp", PInt 2)]);
   ("42", PDict [("position", PList [PStr "WR"; PStr "RB"]);
                 ("years_exp", PInt 0)])].

(** A response that uses the output's column names where the API's are
    expected. *)
Definition stats_renamed : pydict :=
  [("KC", PDict [("pass_yds_rank", PInt 3); ("pass_yards_rank", PInt 30);
                 ("td", PInt 55); ("team_td", PInt 1)])].

(** The frame of a result, empty when the call raised. *)
Definition frame_of (r : result DataFrame) : DataFrame :=
  match r with Ok df => df | Raise _ => pd_DataFrame [] end.

(** * Properties *)

Lemma keeps_true cond k v : cond k v = Ok true → keeps cond (k, v).
Proof. unfold keeps; simpl. by intros ->. Qed.

Lemma keeps_false cond k v : cond k v = Ok false → ¬ keeps cond (k, v).
Proof. unfold keeps; simpl. intros ->. exact id. Qed.

Lemma keeps_spec cond e : keeps cond e ↔ cond e.1 e.2 = Ok true.
Proof.
  unfold keeps. destruct (cond e.1 e.2) as [[]|]; simpl; split; try done.
Qed.

Section Pipeline.
Variables (url path : string).
Variables (cond : string → pyval → result bool).
Variables (elt : string → pyval → result pydict).
Variable (msg : DataFrame → string).


Lemma pipeline_ok_inv w df w' :
  pipeline url path cond elt msg w = (Ok df, w') →
  ∃ resp d rows,
    net w url = Some resp ∧ raise_for_status resp = Ok tt ∧
    body resp = Some (PDict d) ∧ comprehension cond elt d = Ok rows ∧
    (path ∉ denied w) ∧ df = pd_DataFrame rows ∧ w' = done_world url path msg w df.
Proof.
  unfold pipeline, bind, requests_get, lift, to_csv, print, ret.
  destruct (net w url) as [r|] eqn:Hnet; simpl; [|done].
  destruct (raise_for_status r) as [[]|] eqn:Hst; simpl; [|done].
  unfold json. destruct (body r) as [v|] eqn:Hbody; simpl; [|done].
  destruct v as [| | | | | |d]; simpl; try done.
  destruct (comprehension cond elt d) as [rows|] eqn:Hc; simpl; [|done].
  case_bool_decide as Hden; simpl; [done|].
  intros [= <- <-]. by exists r, d, rows.
Qed.

Lemma pipeline_ok_intro w resp d rows :
  net w url = Some resp → raise_for_status resp = Ok tt →
  body resp = Some (PDict d) → comprehension cond elt d = Ok rows →
  path ∉ denied w →
  pipeline url path cond elt msg w = (Ok (pd_DataFrame rows), done_world url path msg w (pd_DataFrame rows)).
Proof.
  intros Hnet Hst Hbody Hc Hden.
  unfold pipeline, bind, requests_get, lift, to_csv, print, ret, json.
  rewrite Hnet; simpl. rewrite Hst, Hbody; simpl. rewrite Hc; simpl.
  by rewrite bool_decide_false.
Qed.

Lemma pipeline_http_error w resp :
  net w url = Some resp → 400 ≤ status_code resp < 600 →
  (pipeline url path cond elt msg w).1 = Raise HTTPError ∧ files (pipeline url path cond elt msg w).2 = files w ∧
  stdout (pipeline url path cond elt msg w).2 = stdout w.
Proof.
  intros Hnet [Hlo Hhi].
  unfold pipeline, bind, requests_get, lift, raise_for_status.
  rewrite Hnet; simpl.
  assert ((400 <=? status_code resp) && (status_code resp <? 600) = true)
    as -> by (apply andb_true_intro; split; lia).
  done.
Qed.

(** *** The comprehension keeps exactly the items whose condition holds,
    in their order *)

Lemma comprehension_inv d rows :
  comprehension cond elt d = Ok rows →
  Forall (λ e, ∃ b, cond e.1 e.2 = Ok b) d ∧
  Forall2 (λ e r, elt e.1 e.2 = Ok r) (filter (keeps cond) d) rows.
Proof.
  revert rows. induction d as [|[k v] d IH]; intros rows Hrun.
  - injection Hrun as <-. split; constructor.
  - cbn [comprehension] in Hrun.
    destruct (cond k v) as [[]|] eqn:Hc; cbn [rbind] in Hrun; [| |done].
    + destruct (elt k v) as [r|] eqn:He; cbn [rbind] in Hrun; [|done].
      destruct (comprehension cond elt d) as [rs|]; [|done].
      injection Hrun as <-. destruct (IH rs eq_refl) as [Hd Hf]. split.
      * constructor; [by exists true|done].
      * rewrite filter_cons_True by by apply keeps_true.
        by constructor.
    + destruct (IH rows Hrun) as [Hd Hf]. split.
      * constructor; [by exists false|done].
      * by rewrite filter_cons_False by by apply keeps_false.
Qed.

Lemma comprehension_intro d :
  Forall (λ e, ∃ b, cond e.1 e.2 = Ok b) d →
  Forall (λ e, ∃ r, elt e.1 e.2 = Ok r) (filter (keeps cond) d) →
  ∃ rows, comprehension cond elt d = Ok rows.
Proof.
  induction d as [|[k v] d IH]; [by exists []|].
  intros Hd Hf. apply Forall_cons in Hd as [[b Hb] Hd]. simpl in Hb.
  cbn [comprehension]. rewrite Hb; cbn [rbind]. destruct b.
  - rewrite filter_cons_True in Hf by by apply keeps_true.
    apply Forall_cons in Hf as [[r Hr] Hf]. simpl in Hr.
    rewrite Hr; cbn [rbind].
    destruct (IH Hd Hf) as [rs ->]. by eexists.
  - rewrite filter_cons_False in Hf by by apply keeps_false.
    by apply IH.
Qed.
End Pipeline.


Lemma get_rookies_pipeline year :
  get_rookies year =
    pipeline rookies_url rookies_output_path rookie_cond rookie_record
      (λ df, "Saved " +:+ pretty (len df)
             +:+ " rookies (QB, RB, WR, TE) to rookies_" +:+ pretty year
             +:+ ".csv").
Proof. reflexivity. Qed.

Lemma get_team_offensive_stats_pipeline year :
  get_team_offensive_stats year =
    pipeline (team_stats_url year) (team_stats_output_path year)
      team_cond (team_record year)
      (λ _, "Saved team offensive stats for " +:+ pretty year).
Proof. reflexivity. Qed.

(** Every row of a comprehension comes from an item that passed the
    condition. *)
Lemma comprehension_rows cond elt d rows :
  comprehension cond elt d = Ok rows →
  Forall (λ r, ∃ e, e ∈ d ∧ cond e.1 e.2 = Ok true ∧ elt e.1 e.2 = Ok r) rows.
Proof.
  intros Hrun. destruct (comprehension_inv _ _ _ _ Hrun) as [_ Hf].
  apply Forall_forall. intros r Hr.
  apply list_elem_of_lookup in Hr as [i Hi].
  destruct (Forall2_lookup_r _ _ _ _ _ Hf Hi) as (e & He & Helt).
  apply list_elem_of_lookup_2 in He. apply list_elem_of_filter in He as [Hk Hin].
  exists e. by rewrite <- keeps_spec.
Qed.

(** ** The rookie filter and projection *)

Lemma elem_of_valid_positions p :
  p ∈ valid_positions ↔ p = "QB" ∨ p = "RB" ∨ p = "WR" ∨ p = "TE".
Proof.
  unfold valid_positions. rewrite !elem_of_union, !elem_of_singleton. tauto.
Qed.

Lemma py_in_true v s : py_in v s = Ok true → ∃ x, v = PStr x ∧ x ∈ s.
Proof.
  destruct v; simpl; intros Hb; try discriminate Hb.
  injection Hb as Hb. apply bool_decide_eq_true in Hb. eauto.
Qed.

Lemma rookie_cond_true pid player :
  rookie_cond pid player = Ok true →
  ∃ f p, player = PDict f ∧ py_eq_int (dict_get f "years_exp") 0 = true ∧
         dict_get f "position" = PStr p ∧ p ∈ valid_positions.
Proof.
  destruct player as [| | | | | |f]; try done. unfold rookie_cond; simpl.
  destruct (py_eq_int (dict_get f "years_exp") 0) eqn:Hy; [|done].
  intros Hin. apply py_in_true in Hin as (p & Hp & Hv). by exists f, p.
Qed.

Lemma rookie_record_dict pid f :
  rookie_record pid (PDict f) =
    Ok [("player_id", PStr pid);
        ("full_name", dict_get f "full_name");
        ("position", dict_get f "position");
        ("team", dict_get f "team");
        ("college", dict_get f "college");
        ("years_exp", dict_get f "years_exp")].
Proof. reflexivity. Qed.

Lemma team_record_dict year team f :
  team_record year team (PDict f) =
    Ok [("team", PStr team);
        ("year", PInt year);
        ("offense_rank", dict_get f "offense_rank");
        ("pass_yards_rank", dict_get f "pass_yds_rank");
        ("pass_td_rank", dict_get f "pass_td_rank");
        ("rush_yards_rank", dict_get f "rush_yds_rank");
        ("rush_td_rank", dict_get f "rush_td_rank");
        ("rec_yards_rank", dict_get f "rec_yds_rank");
        ("rec_td_rank", dict_get f "rec_td_rank");
        ("team_td", dict_get f "td");
        ("redzone_rank", dict_get f "redzone_rank");
        ("redzone_pct", dict_get f "redzone_pct")].
Proof. reflexivity. Qed.

Lemma team_cond_true team stats :
  team_cond team stats = Ok true → ∃ f, stats = PDict f.
Proof. destruct stats; try done. eauto. Qed.

(** Every row [get_rookies] emits is the projection of a dict entry of
    the response that passed the filter. *)
Lemma rookie_rows_origin d rows :
  comprehension rookie_cond rookie_record d = Ok rows →
  Forall (λ r, ∃ pid f p,
            (pid, PDict f) ∈ d ∧
            py_eq_int (dict_get f "years_exp") 0 = true ∧
            dict_get f "position" = PStr p ∧ p ∈ valid_positions ∧
            rookie_record pid (PDict f) = Ok r) rows.
Proof.
  intros Hrun. eapply Forall_impl; [by apply comprehension_rows|].
  intros r ([pid player] & Hin & Hc & Hr); simpl in *.
  apply rookie_cond_true in Hc as (f & p & -> & Hy & Hp & Hv).
  by exists pid, f, p.
Qed.

(** ** Lists and dicts *)


Lemma Forall2_fmap_eq {A B C} (f : A → C) (g : B → C) l k :
  Forall2 (λ x y, f x = g y) l k → f <$> l = g <$> k.
Proof.
  induction 1 as [|x y l k Hxy _ IH]; [done|].
  rewrite !fmap_cons. by rewrite Hxy, IH.
Qed.

Lemma dict_get_absent d key : dict_has d key = false → dict_get d key = PNone.
Proof.
  induction d as [|[k v] d IH]; [done|]. simpl.
  destruct (String.eqb k key); simpl; [done|exact IH].
Qed.

Lemma dict_wf_unique d k v1 v2 :
  dict_wf d → (k, v1) ∈ d → (k, v2) ∈ d → v1 = v2.
Proof.
  unfold dict_wf. induction d as [|[k' v'] d IH]; [intros _ Hin; inv Hin|].
  rewrite fmap_cons, NoDup_cons, !elem_of_cons. simpl.
  intros [Hfresh Hnd] [H1|H1] [H2|H2].
  - congruence.
  - injection H1 as -> ->. destruct Hfresh.
    apply list_elem_of_fmap. by exists (k', v2).
  - injection H2 as -> ->. destruct Hfresh.
    apply list_elem_of_fmap. by exists (k', v1).
  - by apply IH.
Qed.

Lemma py_eq_int_zero v : py_eq_int v 0 = true ↔ zero_like v.
Proof.
  unfold zero_like. destruct v as [|b|n|f| | |]; simpl;
    try (split; [done|intros [?|[?|[? ?]]]; done]).
  - destruct b; simpl; split; try done; [intros [?|[?|[? ?]]]; done|auto].
  - rewrite Z.eqb_eq. split; [intros ->; auto|].
    intros [[= ->]|[?|[? ?]]]; done.
  - destruct f as [s|s| |s m e]; simpl.
    + split; [eauto|done].
    + split; [done|intros [?|[?|[? ?]]]; done].
    + split; [done|intros [?|[?|[? ?]]]; done].
    + split; [|intros [?|[?|[? ?]]]; done].
      destruct (0 <=? e) eqn:He; rewrite Z.eqb_eq; [|by destruct s].
      apply Z.leb_le in He. pose proof (Z.pow_pos_nonneg 2 e).
      destruct s; nia.
Qed.

Lemma rookie_cond_eligible pid player :
  eligible player → rookie_cond pid player = Ok true.
Proof.
  intros (f & -> & Hy & Hp). unfold rookie_cond; simpl. rewrite Hy.
  rewrite !elem_of_cons in Hp.
  destruct Hp as [-> | [-> | [-> | [-> | Hnil]]]];
    [reflexivity..|inv Hnil].
Qed.

Lemma keeps_team_cond e : keeps team_cond e ↔ isinstance_dict e.2.
Proof. unfold keeps, team_cond. by destruct (isinstance_dict e.2). Qed.

(** The condition of the team comprehension never raises, and its
    element expression is only reached on a dict, where it cannot. *)
Lemma team_comprehension_total year d :
  ∃ rows, comprehension team_cond (team_record year) d = Ok rows.
Proof.
  apply comprehension_intro.
  - apply Forall_forall. intros e _. by eexists.
  - apply Forall_forall. intros [team stats] [Hk _]%list_elem_of_filter.
    apply keeps_spec, team_cond_true in Hk as [f Hf]. simpl in *. subst.
    by eexists.
Qed.

(** The key column of the output lists the kept keys in input order. *)
Lemma rookie_ids d rows :
  comprehension rookie_cond rookie_record d = Ok rows →
  (λ r, dict_get r "player_id") <$> rows
  = PStr <$> (filter (keeps rookie_cond) d).*1.
Proof.
  intros Hrun. destruct (comprehension_inv _ _ _ _ Hrun) as [_ Hf].
  rewrite <- list_fmap_compose. symmetry. apply Forall2_fmap_eq.
  apply Forall2_same_length_lookup. split; [by eapply Forall2_length|].
  intros i [pid player] r He Hr.
  destruct (Forall2_lookup_l _ _ _ _ _ Hf He) as (r' & Hr' & Helt).
  assert (r' = r) as -> by congruence.
  apply list_elem_of_lookup_2, list_elem_of_filter in He as [Hk _].
  apply keeps_spec, rookie_cond_true in Hk as (f & p & Hpl & _).
  simpl in *. subst. rewrite rookie_record_dict in Helt.
  by injection Helt as <-.
Qed.

Lemma team_ids year d rows :
  comprehension team_cond (team_record year) d = Ok rows →
  (λ r, dict_get r "team") <$> rows
  = PStr <$> (filter (λ e, isinstance_dict e.2) d).*1.
Proof.
  intros Hrun. destruct (comprehension_inv _ _ _ _ Hrun) as [_ Hf].
  rewrite (list_filter_iff _ (keeps team_cond))
    by (intros e; symmetry; apply keeps_team_cond).
  rewrite <- list_fmap_compose. symmetry. apply Forall2_fmap_eq.
  apply Forall2_same_length_lookup. split; [by eapply Forall2_length|].
  intros i [team stats] r He Hr.
  destruct (Forall2_lookup_l _ _ _ _ _ Hf He) as (r' & Hr' & Helt).
  assert (r' = r) as -> by congruence.
  apply list_elem_of_lookup_2, list_elem_of_filter in He as [Hk _].
  apply keeps_spec, team_cond_true in Hk as [f Hst].
  simpl in *. subst. rewrite team_record_dict in Helt.
  by injection Helt as <-.
Qed.

Lemma get_rookies_mixed :
  get_rookies 2024 (world_of (mkResponse 200 (Some players_mixed))) =
    (Ok rookies_mixed,
     done_world rookies_url rookies_output_path
       (λ _, "Saved 2 rookies (QB, RB, WR, TE) to rookies_2024.csv")
       (world_of (mkResponse 200 (Some players_mixed))) rookies_mixed).
Proof. reflexivity. Qed.

(** C1. Every record of the frame [get_rookies] returns satisfies
    [years_exp == 0] (Python's [==]) and has its position among QB, RB,
    WR, TE; the frame written to the output path is the frame returned. *)
Theorem rookies_invariant year w df w' :
  get_rookies year w = (Ok df, w') →
  Forall (λ r, py_eq_int (dict_get r "years_exp") 0 = true ∧
               dict_get r "position"
                 ∈ [PStr "QB"; PStr "RB"; PStr "WR"; PStr "TE"])
         (records df) ∧
  files w' !! rookies_output_path = Some df.
Proof.
  rewrite get_rookies_pipeline. intros Hrun.
  apply pipeline_ok_inv in Hrun
    as (resp & d & rows & Hnet & Hst & Hbody & Hc & Hden & -> & ->).
  split; [|apply lookup_insert_eq].
  eapply Forall_impl; [by apply rookie_rows_origin|].
  intros r (pid & f & p & _ & Hy & Hp & Hv & Hr).
  rewrite rookie_record_dict in Hr. injection Hr as <-.
  split; [exact Hy|]. change (dict_get _ "position") with (dict_get f "position").
  rewrite Hp. apply elem_of_valid_positions in Hv.
  rewrite !elem_of_cons.
  destruct Hv as [-> | [-> | [-> | ->]]]; tauto.
Qed.

Lemma rookies_invariant_witness :
  Forall (λ r, py_eq_int (dict_get r "years_exp") 0 = true ∧
               dict_get r "position"
                 ∈ [PStr "QB"; PStr "RB"; PStr "WR"; PStr "TE"])
         (records rookies_mixed) ∧
  files (get_rookies 2024 (world_of (mkResponse 200 (Some players_mixed)))).2
    !! rookies_output_path = Some rookies_mixed.
Proof.
  apply (rookies_invariant 2024 (world_of (mkResponse 200 (Some players_mixed)))).
  reflexivity.
Defined.

(** C2. When the response has a client- or server-error status, both
    functions raise [HTTPError] and leave the file store as it was. *)
Theorem http_error_no_write year w :
  (http_failed w rookies_url →
     (get_rookies year w).1 = Raise HTTPError ∧
     files (get_rookies year w).2 = files w) ∧
  (http_failed w (team_stats_url year) →
     (get_team_offensive_stats year w).1 = Raise HTTPError ∧
     files (get_team_offensive_stats year w).2 = files w).
Proof.
  rewrite get_rookies_pipeline, get_team_offensive_stats_pipeline.
  split; intros (resp & Hnet & Hst);
    (edestruct pipeline_http_error as (Hraise & Hfiles & _);
       [exact Hnet|exact Hst|]);
    (split; [exact Hraise|exact Hfiles]).
Qed.

Lemma http_error_no_write_witness :
  ((get_rookies 2024 world_500).1 = Raise HTTPError ∧
   files (get_rookies 2024 world_500).2 = files world_500) ∧
  ((get_team_offensive_stats 2024 world_500).1 = Raise HTTPError ∧
   files (get_team_offensive_stats 2024 world_500).2 = files world_500).
Proof.
  destruct (http_error_no_write 2024 world_500) as [Hr Ht].
  split; [apply Hr|apply Ht];
    (exists (mkResponse 500 (Some players_mixed)); split;
       [reflexivity|simpl; lia]).
Defined.

(** C4. Whatever the year, a run of [get_rookies] that returns has
    written its frame to the one path [data/raw/rookies_{year}.csv],
    braces included, and to no other. *)
Theorem rookies_path_literal year w df w' :
  get_rookies year w = (Ok df, w') →
  files w' = <["data/raw/rookies_{year}.csv" := df]> (files w).
Proof.
  rewrite get_rookies_pipeline. intros Hrun.
  apply pipeline_ok_inv in Hrun
    as (resp & d & rows & Hnet & Hst & Hbody & Hc & Hden & -> & ->).
  reflexivity.
Qed.

Lemma rookies_path_literal_witness :
  files (get_rookies 1999 (world_of (mkResponse 200 (Some players_mixed)))).2
  = <["data/raw/rookies_{year}.csv" := rookies_mixed]> ∅.
Proof.
  apply (rookies_path_literal 1999
           (world_of (mkResponse 200 (Some players_mixed))) rookies_mixed).
  reflexivity.
Defined.


(** C9. Every record [get_team_offensive_stats] returns carries the
    caller's year in its [year] field, whatever the response holds. *)
Theorem team_stats_year year w df w' :
  get_team_offensive_stats year w = (Ok df, w') →
  Forall (λ r, dict_get r "year" = PInt year) (records df).
Proof.
  rewrite get_team_offensive_stats_pipeline. intros Hrun.
  apply pipeline_ok_inv in Hrun
    as (resp & d & rows & Hnet & Hst & Hbody & Hc & Hden & -> & ->).
  eapply Forall_impl; [by apply comprehension_rows|].
  intros r ([team stats] & Hin & Hcond & Hr); simpl in *.
  apply team_cond_true in Hcond as [f ->].
  rewrite team_record_dict in Hr. by injection Hr as <-.
Qed.

Lemma team_stats_year_witness :
  Forall (λ r, dict_get r "year" = PInt 2024) (records teams_kc_buf).
Proof.
  apply (team_stats_year 2024
           (world_of (mkResponse 200 (Some stats_with_year))) _
           (get_team_offensive_stats 2024
              (world_of (mkResponse 200 (Some stats_with_year)))).2).
  vm_compute. reflexivity.
Defined.

(** C3. A team entry yields an output record exactly when its stats are
    a mapping; the others are dropped and nothing raises.  For the
    response [{"KC": {"offense_rank": 2}, "BUF": "bye"}] the output is
    the single KC record with [offense_rank = 2] and [None] in every
    other field read from the stats. *)
Theorem team_stats_mapping_entries year w resp d :
  net w (team_stats_url year) = Some resp →
  raise_for_status resp = Ok tt →
  body resp = Some (PDict d) →
  team_stats_output_path year ∉ denied w →
  dict_wf d →
  ∃ df w',
    get_team_offensive_stats year w = (Ok df, w') ∧
    column "team" df = PStr <$> (filter (λ e, isinstance_dict e.2) d).*1 ∧
    (∀ team stats, (team, stats) ∈ d →
       (PStr team ∈ column "team" df ↔ isinstance_dict stats = true)) ∧
    (d = stats_kc_buf →
       records df =
         [[("team", PStr "KC"); ("year", PInt year);
           ("offense_rank", PInt 2); ("pass_yards_rank", PNone);
           ("pass_td_rank", PNone); ("rush_yards_rank", PNone);
           ("rush_td_rank", PNone); ("rec_yards_rank", PNone);
           ("rec_td_rank", PNone); ("team_td", PNone);
           ("redzone_rank", PNone); ("redzone_pct", PNone)]]).
Proof.
  intros Hnet Hst Hbody Hden Hwf.
  destruct (team_comprehension_total year d) as [rows Hrows].
  eexists _, _. rewrite get_team_offensive_stats_pipeline.
  split; [by eapply pipeline_ok_intro|].
  pose proof (team_ids _ _ _ Hrows) as Hids.
  split; [exact Hids|]. split.
  - intros team stats Hin. unfold column; simpl. rewrite Hids.
    rewrite list_elem_of_fmap. split.
    + intros (team' & [= <-] & Hteam).
      apply list_elem_of_fmap in Hteam as ([team' stats'] & Heq & Hk).
      simpl in Heq; subst team'.
      apply list_elem_of_filter in Hk as [Hdict Hin'].
      rewrite (dict_wf_unique _ _ _ _ Hwf Hin Hin'). by apply Is_true_true.
    + intros Hdict. exists team. split; [done|].
      apply list_elem_of_fmap. exists (team, stats). split; [done|].
      apply list_elem_of_filter. split; [by apply Is_true_true|done].
  - intros ->. simpl. by injection Hrows as <-.
Qed.

Lemma team_stats_mapping_entries_witness :
  ∃ df w',
    get_team_offensive_stats 2024
      (world_of (mkResponse 200 (Some (PDict stats_kc_buf)))) = (Ok df, w') ∧
    column "team" df
      = PStr <$> (filter (λ e, isinstance_dict e.2) stats_kc_buf).*1 ∧
    (∀ team stats, (team, stats) ∈ stats_kc_buf →
       (PStr team ∈ column "team" df ↔ isinstance_dict stats = true)) ∧
    (stats_kc_buf = stats_kc_buf →
       records df =
         [[("team", PStr "KC"); ("year", PInt 2024);
           ("offense_rank", PInt 2); ("pass_yards_rank", PNone);
           ("pass_td_rank", PNone); ("rush_yards_rank", PNone);
           ("rush_td_rank", PNone); ("rec_yards_rank", PNone);
           ("rec_td_rank", PNone); ("team_td", PNone);
           ("redzone_rank", PNone); ("redzone_pct", PNone)]]).
Proof.
  apply (team_stats_mapping_entries 2024
           (world_of (mkResponse 200 (Some (PDict stats_kc_buf))))
           (mkResponse 200 (Some (PDict stats_kc_buf)))).
  - reflexivity.
  - reflexivity.
  - reflexivity.
  - simpl. apply not_elem_of_empty.
  - unfold dict_wf, stats_kc_buf. simpl.
    repeat (apply NoDup_cons; split; [rewrite ?elem_of_cons, elem_of_nil; intuition discriminate|]).
    apply NoDup_nil_2.
Defined.



(** C6. Both outputs follow the iteration order of the response
    mapping: the key column of the frame is the keys of the surviving
    entries, in the order the mapping lists them. *)
Theorem output_in_source_order year w resp d df w' :
  body resp = Some (PDict d) →
  (net w rookies_url = Some resp →
   get_rookies year w = (Ok df, w') →
   column "player_id" df = PStr <$> (filter (keeps rookie_cond) d).*1 ∧
   column "player_id" df `sublist_of` PStr <$> d.*1) ∧
  (net w (team_stats_url year) = Some resp →
   get_team_offensive_stats year w = (Ok df, w') →
   column "team" df = PStr <$> (filter (keeps team_cond) d).*1 ∧
   column "team" df `sublist_of` PStr <$> d.*1).
Proof.
  intros Hbody.
  rewrite get_rookies_pipeline, get_team_offensive_stats_pipeline.
  split; intros Hnet Hrun;
    apply pipeline_ok_inv in Hrun
      as (resp' & d' & rows & Hnet' & _ & Hbody' & Hc & _ & -> & _);
    assert (d' = d) as -> by congruence; unfold column; simpl.
  - rewrite (rookie_ids _ _ Hc). split; [done|].
    do 2 apply fmap_sublist. apply sublist_filter.
  - rewrite (team_ids _ _ _ Hc).
    rewrite (list_filter_iff _ (keeps team_cond))
      by (intros e; symmetry; apply keeps_team_cond).
    split; [done|]. do 2 apply fmap_sublist. apply sublist_filter.
Qed.

Lemma output_in_source_order_witness :
  (column "player_id" rookies_mixed = [PStr "1"; PStr "5"] ∧
   column "player_id" rookies_mixed
     `sublist_of` [PStr "1"; PStr "2"; PStr "3"; PStr "4"; PStr "5"]) ∧
  (column "team" teams_kc_buf = [PStr "KC"; PStr "BUF"] ∧
   column "team" teams_kc_buf
     `sublist_of` [PStr "KC"; PStr "season"; PStr "BUF"]).
Proof.
  split.
  - pose (w := world_of (mkResponse 200 (Some players_mixed))).
    assert (Hb : body (mkResponse 200 (Some players_mixed))
                 = Some (PDict players_mixed_items)) by reflexivity.
    destruct (output_in_source_order 2024 w _ _ rookies_mixed
                (get_rookies 2024 w).2 Hb) as [Hrook _].
    apply Hrook; reflexivity.
  - pose (w := world_of (mkResponse 200 (Some stats_with_year))).
    assert (Hb : body (mkResponse 200 (Some stats_with_year))
                 = Some stats_with_year) by reflexivity.
    unfold stats_with_year in Hb at 2.
    destruct (output_in_source_order 2024 w _ _ teams_kc_buf
                (get_team_offensive_stats 2024 w).2 Hb) as [_ Hteam].
    apply Hteam; [reflexivity|vm_compute; reflexivity].
Defined.

(** C8. On an entry that passed the rookie filter the projection cannot
    fail: no field lookup raises and the record is built with its six
    fields, [player_id] first; each of [full_name], [team], [college]
    the entry lacks is present in the record with the value [None]. *)
Theorem rookie_projection_total pid player :
  rookie_cond pid player = Ok true →
  (∀ key e, py_get player key ≠ Raise e) ∧
  ∃ f r,
    player = PDict f ∧ rookie_record pid player = Ok r ∧
    r.*1 = ["player_id"; "full_name"; "position"; "team"; "college";
            "years_exp"] ∧
    (∀ field, field ∈ ["full_name"; "team"; "college"] →
              dict_has f field = false →
              (field, PNone) ∈ r ∧ dict_has r field = true ∧
              dict_get r field = PNone).
Proof.
  intros Hc. apply rookie_cond_true in Hc as (f & p & -> & _).
  split; [done|]. eexists f, _. split; [done|].
  split; [apply rookie_record_dict|]. split; [done|].
  intros field Hfield Habs. apply dict_get_absent in Habs.
  rewrite !elem_of_cons in Hfield.
  destruct Hfield as [-> | [-> | [-> | Hnil]]]; [..|inv Hnil];
    (split; [rewrite <- Habs, !elem_of_cons; tauto|]);
    (split; [reflexivity|exact Habs]).
Qed.

Lemma rookie_projection_total_witness :
  (∀ key e,
     py_get (PDict [("position", PStr "QB"); ("years_exp", PInt 0)]) key
     ≠ Raise e) ∧
  ∃ f r,
    PDict [("position", PStr "QB"); ("years_exp", PInt 0)] = PDict f ∧
    rookie_record "11" (PDict [("position", PStr "QB"); ("years_exp", PInt 0)])
    = Ok r ∧
    r.*1 = ["player_id"; "full_name"; "position"; "team"; "college";
            "years_exp"] ∧
    (∀ field, field ∈ ["full_name"; "team"; "college"] →
              dict_has f field = false →
              (field, PNone) ∈ r ∧ dict_has r field = true ∧
              dict_get r field = PNone).
Proof.
  apply (rookie_projection_total "11"
           (PDict [("position", PStr "QB"); ("years_exp", PInt 0)])).
  reflexivity.
Defined.

(** C10, as stated, fails: entries whose [years_exp] is [False] or
    [0.0] pass [== 0] and are emitted, though neither is the int [0]. *)
Lemma rookie_filter_int_only_counterexample :
  (get_rookies 2024 (world_of (mkResponse 200 (Some players_zero_like)))).1
  = Ok (pd_DataFrame
          [[("player_id", PStr "21"); ("full_name", PNone);
            ("position", PStr "QB"); ("team", PNone); ("college", PNone);
            ("years_exp", PBool false)];
           [("player_id", PStr "22"); ("full_name", PNone);
            ("position", PStr "WR"); ("team", PNone); ("college", PNone);
            ("years_exp", PFloat (S754_zero false))]]) ∧
  PBool false ≠ PInt 0 ∧ PFloat (S754_zero false) ≠ PInt 0.
Proof. split; [reflexivity|]. split; discriminate. Qed.

(** C10, amended. An entry whose [years_exp] is absent or [None], or
    whose position is absent, has no record in the output; and every
    output record is the projection of an entry whose [years_exp]
    compares equal to [0]: the int [0], [False] or a float zero. *)
Theorem rookie_filter_years_exp year w resp d df w' :
  net w rookies_url = Some resp →
  body resp = Some (PDict d) →
  dict_wf d →
  get_rookies year w = (Ok df, w') →
  (∀ pid f, (pid, PDict f) ∈ d →
     dict_has f "years_exp" = false ∨ dict_get f "years_exp" = PNone ∨
     dict_has f "position" = false →
     PStr pid ∉ column "player_id" df) ∧
  (∀ r, r ∈ records df →
     ∃ pid f, (pid, PDict f) ∈ d ∧ rookie_record pid (PDict f) = Ok r ∧
              zero_like (dict_get f "years_exp")).
Proof.
  intros Hnet Hbody Hwf. rewrite get_rookies_pipeline. intros Hrun.
  apply pipeline_ok_inv in Hrun
    as (resp' & d' & rows & Hnet' & _ & Hbody' & Hc & _ & -> & _).
  assert (d' = d) as -> by congruence. split.
  - intros pid f Hin Hbad Hcol. unfold column in Hcol; simpl in Hcol.
    rewrite (rookie_ids _ _ Hc) in Hcol.
    apply list_elem_of_fmap in Hcol as (pid' & [= <-] & Hpid).
    apply list_elem_of_fmap in Hpid as ([pid' pl] & Heq & Hk).
    simpl in Heq; subst pid'.
    apply list_elem_of_filter in Hk as [Hk Hin'].
    apply keeps_spec, rookie_cond_true in Hk as (f' & p & Hpl & Hy & Hp & _).
    simpl in Hpl; subst pl.
    pose proof (dict_wf_unique _ _ _ _ Hwf Hin Hin') as [= ->].
    destruct Hbad as [Habs | [Hnone | Habs]].
    + apply dict_get_absent in Habs. by rewrite Habs in Hy.
    + by rewrite Hnone in Hy.
    + apply dict_get_absent in Habs. by rewrite Habs in Hp.
  - intros r Hr. pose proof (rookie_rows_origin _ _ Hc) as Hrows.
    rewrite Forall_forall in Hrows.
    destruct (Hrows r Hr) as (pid & f & p & Hin & Hy & _ & _ & Hrec).
    exists pid, f. by rewrite <- py_eq_int_zero.
Qed.

Lemma rookie_filter_years_exp_witness :
  (∀ pid f, (pid, PDict f) ∈ players_mixed_items →
     dict_has f "years_exp" = false ∨ dict_get f "years_exp" = PNone ∨
     dict_has f "position" = false →
     PStr pid ∉ column "player_id" rookies_mixed) ∧
  (∀ r, r ∈ records rookies_mixed →
     ∃ pid f, (pid, PDict f) ∈ players_mixed_items ∧
              rookie_record pid (PDict f) = Ok r ∧
              zero_like (dict_get f "years_exp")).
Proof.
  apply (rookie_filter_years_exp 2024
           (world_of (mkResponse 200 (Some players_mixed)))
           (mkResponse 200 (Some players_mixed)) players_mixed_items
           rookies_mixed
           (get_rookies 2024
              (world_of (mkResponse 200 (Some players_mixed)))).2).
  - reflexivity.
  - reflexivity.
  - unfold dict_wf, players_mixed_items. simpl.
    repeat (apply NoDup_cons; split;
            [rewrite ?elem_of_cons, elem_of_nil; intuition discriminate|]).
    apply NoDup_nil_2.
  - reflexivity.
Defined.

(** * Further properties of the two functions *)

(** ** Which entries reach the rookie output *)

Lemma eligible_rookie_cond pid player :
  rookie_cond pid player = Ok true ↔ eligible player.
Proof.
  split; [|apply rookie_cond_eligible].
  intros (f & p & -> & Hy & Hp & Hv)%rookie_cond_true.
  exists f. split; [done|]. split; [done|]. rewrite Hp.
  apply elem_of_valid_positions in Hv. rewrite !elem_of_cons.
  destruct Hv as [-> | [-> | [-> | ->]]]; tauto.
Qed.

(** X1. In a frame [get_rookies] returns, a player id occurs exactly
    when the response maps it to an eligible entry: nothing eligible is
    dropped and nothing else is let through. *)
Theorem rookies_membership year w resp d df w' pid :
  net w rookies_url = Some resp →
  body resp = Some (PDict d) →
  get_rookies year w = (Ok df, w') →
  PStr pid ∈ column "player_id" df ↔
  ∃ player, (pid, player) ∈ d ∧ eligible player.
Proof.
  intros Hnet Hbody. rewrite get_rookies_pipeline. intros Hrun.
  apply pipeline_ok_inv in Hrun
    as (resp' & d' & rows & Hnet' & _ & Hbody' & Hc & _ & -> & _).
  assert (d' = d) as -> by congruence.
  unfold column; simpl. rewrite (rookie_ids _ _ Hc). split.
  - intros (pid' & [= <-] & Hpid)%list_elem_of_fmap.
    apply list_elem_of_fmap in Hpid as ([pid' pl] & Heq & Hk).
    simpl in Heq; subst pid'.
    apply list_elem_of_filter in Hk as [Hk Hin].
    apply keeps_spec in Hk. simpl in Hk.
    exists pl. split; [done|]. by apply (eligible_rookie_cond pid).
  - intros (pl & Hin & Hel). apply list_elem_of_fmap. exists pid.
    split; [done|]. apply list_elem_of_fmap. exists (pid, pl).
    split; [done|]. apply list_elem_of_filter. split; [|done].
    by apply keeps_true, rookie_cond_eligible.
Qed.

Lemma rookies_membership_witness :
  PStr "5" ∈ column "player_id" rookies_mixed ↔
  ∃ player, ("5", player) ∈ players_mixed_items ∧ eligible player.
Proof.
  apply (rookies_membership 2024
           (world_of (mkResponse 200 (Some players_mixed)))
           (mkResponse 200 (Some players_mixed)) players_mixed_items
           rookies_mixed
           (get_rookies 2024
              (world_of (mkResponse 200 (Some players_mixed)))).2);
    reflexivity.
Defined.

(** X2. The key column of either output has no repeated value: one
    record per player id, one per team. *)
Theorem output_keys_unique year w resp d df w' :
  body resp = Some (PDict d) →
  dict_wf d →
  (net w rookies_url = Some resp →
   get_rookies year w = (Ok df, w') → NoDup (column "player_id" df)) ∧
  (net w (team_stats_url year) = Some resp →
   get_team_offensive_stats year w = (Ok df, w') →
   NoDup (column "team" df)).
Proof.
  intros Hbody Hwf.
  assert (Inj (=) (=) PStr) as Hinj by (intros ?? [=]; done).
  rewrite get_rookies_pipeline, get_team_offensive_stats_pipeline.
  split; intros Hnet Hrun;
    apply pipeline_ok_inv in Hrun
      as (resp' & d' & rows & Hnet' & _ & Hbody' & Hc & _ & -> & _);
    assert (d' = d) as -> by congruence; unfold column; simpl.
  - rewrite (rookie_ids _ _ Hc). apply NoDup_fmap_2; [done|].
    eapply sublist_NoDup; [exact Hwf|]. apply fmap_sublist, sublist_filter.
  - rewrite (team_ids _ _ _ Hc). apply NoDup_fmap_2; [done|].
    eapply sublist_NoDup; [exact Hwf|]. apply fmap_sublist, sublist_filter.
Qed.

Lemma players_mixed_items_wf : dict_wf players_mixed_items.
Proof.
  unfold dict_wf, players_mixed_items. simpl.
  repeat (apply NoDup_cons; split;
          [rewrite ?elem_of_cons, elem_of_nil; intuition discriminate|]).
  apply NoDup_nil_2.
Qed.

Lemma output_keys_unique_witness : NoDup (column "player_id" rookies_mixed).
Proof.
  pose (w := world_of (mkResponse 200 (Some players_mixed))).
  assert (Hb : body (mkResponse 200 (Some players_mixed))
               = Some (PDict players_mixed_items)) by reflexivity.
  destruct (output_keys_unique 2024 w _ _ rookies_mixed
              (get_rookies 2024 w).2 Hb players_mixed_items_wf) as [Hrook _].
  apply Hrook; reflexivity.
Defined.

(** X3. Every record of a returned frame has the same keys in the same
    order: the six rookie columns, the twelve team columns. *)
Theorem record_schema year w df w' :
  (get_rookies year w = (Ok df, w') →
   Forall (λ r, r.*1 = rookie_columns) (records df)) ∧
  (get_team_offensive_stats year w = (Ok df, w') →
   Forall (λ r, r.*1 = team_columns) (records df)).
Proof.
  rewrite get_rookies_pipeline, get_team_offensive_stats_pipeline.
  split; intros Hrun;
    apply pipeline_ok_inv in Hrun
      as (resp & d & rows & _ & _ & _ & Hc & _ & -> & _);
    (eapply Forall_impl; [by apply comprehension_rows|]);
    intros r ([k v] & _ & Hcond & Hr); simpl in *.
  - apply rookie_cond_true in Hcond as (f & p & -> & _).
    rewrite rookie_record_dict in Hr. by injection Hr as <-.
  - apply team_cond_true in Hcond as [f ->].
    rewrite team_record_dict in Hr. by injection Hr as <-.
Qed.

Lemma record_schema_witness :
  Forall (λ r, r.*1 = rookie_columns) (records rookies_mixed) ∧
  Forall (λ r, r.*1 = team_columns) (records teams_kc_buf).
Proof.
  split.
  - apply (record_schema 2024
             (world_of (mkResponse 200 (Some players_mixed))) rookies_mixed
             (get_rookies 2024
                (world_of (mkResponse 200 (Some players_mixed)))).2).
    reflexivity.
  - apply (record_schema 2024
             (world_of (mkResponse 200 (Some stats_with_year))) teams_kc_buf
             (get_team_offensive_stats 2024
                (world_of (mkResponse 200 (Some stats_with_year)))).2).
    vm_compute. reflexivity.
Defined.

(** ** Failure *)

Lemma pipeline_failure_clean url path cond elt msg w e :
  (pipeline url path cond elt msg w).1 = Raise e →
  files (pipeline url path cond elt msg w).2 = files w ∧
  stdout (pipeline url path cond elt msg w).2 = stdout w.
Proof.
  unfold pipeline, bind, requests_get, lift, to_csv, print, ret.
  destruct (net w url) as [r|]; simpl; [|done].
  destruct (raise_for_status r); simpl; [|done].
  destruct (json r) as [v|]; simpl; [|done].
  destruct (py_items v) as [d|]; simpl; [|done].
  destruct (comprehension cond elt d) as [rows|]; simpl; [|done].
  by case_bool_decide.
Qed.

(** The result of a run, stage by stage. *)
Lemma pipeline_result url path cond elt msg w :
  (pipeline url path cond elt msg w).1 =
    match net w url with
    | None => Raise ConnectionError
    | Some resp =>
        let? _ := raise_for_status resp in
        let? data := json resp in
        let? items := py_items data in
        let? rows := comprehension cond elt items in
        if bool_decide (path ∈ denied w) then Raise OSError
        else Ok (pd_DataFrame rows)
    end.
Proof.
  unfold pipeline, bind, requests_get, lift, to_csv, print, ret.
  destruct (net w url) as [r|]; simpl; [|done].
  destruct (raise_for_status r); simpl; [|done].
  destruct (json r) as [v|]; simpl; [|done].
  destruct (py_items v) as [d|]; simpl; [|done].
  destruct (comprehension cond elt d) as [rows|]; simpl; [|done].
  by case_bool_decide.
Qed.

Lemma raise_for_status_ok resp :
  raise_for_status resp = Ok tt ↔ ¬ (400 ≤ status_code resp < 600).
Proof.
  unfold raise_for_status.
  destruct (400 <=? status_code resp) eqn:Hlo;
    destruct (status_code resp <? 600) eqn:Hhi; simpl;
    rewrite ?Z.leb_le, ?Z.leb_gt, ?Z.ltb_lt, ?Z.ltb_ge in *;
    split; try done; try lia.
Qed.

Lemma py_in_defined v s : (∃ b, py_in v s = Ok b) ↔ hashable v = true.
Proof. destruct v; simpl; split; try done; eauto; by intros [? ?]. Qed.

Lemma rookie_cond_defined pid player :
  (∃ b, rookie_cond pid player = Ok b) ↔ rookie_safe player.
Proof.
  unfold rookie_safe.
  destruct player as [| | | | | |f];
    try (split; [by intros [? ?]|by intros (? & ? & ?)]).
  unfold rookie_cond; simpl.
  destruct (py_eq_int (dict_get f "years_exp") 0) eqn:Hy.
  - rewrite py_in_defined. split; [intros Hh; by exists f|].
    intros (f' & [= <-] & Hh). by apply Hh.
  - split; [|by exists false].
    intros _. exists f. split; [done|]. by rewrite Hy.
Qed.

Lemma rookie_cond_unsafe pid player :
  ¬ rookie_safe player →
  rookie_cond pid player
  = Raise (if isinstance_dict player then TypeError else AttributeError).
Proof.
  intros Hbad. destruct player as [| | | | | |f]; try done.
  unfold rookie_cond; simpl.
  destruct (py_eq_int (dict_get f "years_exp") 0) eqn:Hy.
  - destruct (dict_get f "position") eqn:Hp; try done;
      destruct Hbad; exists f; split; try done; by rewrite Hp.
  - destruct Hbad. exists f. split; [done|]. by rewrite Hy.
Qed.

(** The rookie comprehension returns exactly when every entry is safe. *)
Lemma rookie_comprehension_defined d :
  (∃ rows, comprehension rookie_cond rookie_record d = Ok rows) ↔
  Forall (λ e, rookie_safe e.2) d.
Proof.
  split.
  - intros [rows Hrun]. destruct (comprehension_inv _ _ _ _ Hrun) as [Hd _].
    eapply Forall_impl; [exact Hd|]. intros [pid pl] Hb.
    by apply (rookie_cond_defined pid).
  - intros Hsafe. apply comprehension_intro.
    + eapply Forall_impl; [exact Hsafe|]. intros [pid pl] Hs.
      by apply rookie_cond_defined.
    + apply Forall_forall. intros [pid pl] [Hk _]%list_elem_of_filter.
      apply keeps_spec, rookie_cond_true in Hk as (f & p & Hpl & _).
      simpl in *. subst. by eexists.
Qed.

(** A comprehension stops at the first item whose condition raises. *)
Lemma comprehension_first_raise cond elt pre k v post ex :
  Forall (λ e, ∃ b, cond e.1 e.2 = Ok b) pre →
  Forall (λ e, ∃ r, elt e.1 e.2 = Ok r) (filter (keeps cond) pre) →
  cond k v = Raise ex →
  comprehension cond elt (pre ++ (k, v) :: post) = Raise ex.
Proof.
  intros Hpre Hkept Hraise. induction pre as [|[k' v'] pre IH].
  - simpl. by rewrite Hraise.
  - apply Forall_cons in Hpre as [[b Hb] Hpre]. simpl in Hb.
    rewrite <- app_comm_cons. cbn [comprehension]. rewrite Hb; cbn [rbind].
    destruct b.
    + rewrite filter_cons_True in Hkept by by apply keeps_true.
      apply Forall_cons in Hkept as [[r Hr] Hkept]. simpl in Hr.
      rewrite Hr; cbn [rbind]. by rewrite (IH Hpre Hkept).
    + rewrite filter_cons_False in Hkept by by apply keeps_false.
      by apply IH.
Qed.

(** X6. [get_rookies] has no guard for malformed entries: at the first
    entry that is not safe it raises, [AttributeError] for a value that
    is not a mapping and [TypeError] for an unhashable position, however
    many good entries came before or come after. *)
Theorem rookies_first_bad_entry year w resp pre k v post :
  net w rookies_url = Some resp →
  ¬ (400 ≤ status_code resp < 600) →
  body resp = Some (PDict (pre ++ (k, v) :: post)) →
  Forall (λ e, rookie_safe e.2) pre →
  ¬ rookie_safe v →
  (get_rookies year w).1
  = Raise (if isinstance_dict v then TypeError else AttributeError).
Proof.
  intros Hnet Hst Hbody Hpre Hbad.
  rewrite get_rookies_pipeline, pipeline_result, Hnet.
  apply raise_for_status_ok in Hst. rewrite Hst. unfold json.
  rewrite Hbody. cbn [rbind py_items].
  erewrite comprehension_first_raise;
    [done| | |by apply rookie_cond_unsafe].
  - eapply Forall_impl; [exact Hpre|]. intros [pid pl] Hs.
    by apply rookie_cond_defined.
  - apply Forall_forall. intros [pid pl] [Hk _]%list_elem_of_filter.
    apply keeps_spec, rookie_cond_true in Hk as (f & p & Hpl & _).
    simpl in *. subst. by eexists.
Qed.

Lemma rookies_first_bad_entry_witness :
  (get_rookies 2024
     (world_of (mkResponse 200 (Some (PDict players_with_scalar))))).1
  = Raise AttributeError ∧
  (get_rookies 2024
     (world_of (mkResponse 200 (Some (PDict players_with_list_position))))).1
  = Raise TypeError.
Proof.
  split.
  - apply (rookies_first_bad_entry 2024
             (world_of (mkResponse 200 (Some (PDict players_with_scalar))))
             (mkResponse 200 (Some (PDict players_with_scalar)))
             [("31", PDict [("position", PStr "QB"); ("years_exp", PInt 0)])]
             "32" (PStr "retired")
             [("33", PDict [("position", PStr "RB"); ("years_exp", PInt 0)])]).
    + reflexivity.
    + simpl. lia.
    + reflexivity.
    + apply Forall_cons. split; [|apply Forall_nil_2].
      eexists. split; [reflexivity|]. reflexivity.
    + intros (f & Hf & _). discriminate Hf.
  - apply (rookies_first_bad_entry 2024
             (world_of
                (mkResponse 200 (Some (PDict players_with_list_position))))
             (mkResponse 200 (Some (PDict players_with_list_position)))
             [("41", PDict [("position", PList [PStr "QB"]);
                            ("years_exp", PInt 2)])]
             "42" (PDict [("position", PList [PStr "WR"; PStr "RB"]);
                          ("years_exp", PInt 0)])
             []).
    + reflexivity.
    + simpl. lia.
    + reflexivity.
    + apply Forall_cons. split; [|apply Forall_nil_2].
      eexists. split; [reflexivity|]. simpl. discriminate.
    + intros (f & Hf & Hh). injection Hf as <-.
      specialize (Hh eq_refl). discriminate Hh.
Defined.


(** X4. When [response.json()] has returned a value [get_rookies]
    cannot process, one that is not a mapping or a mapping with an
    entry that is not safe for the filter, the call raises before the
    frame is built: no file is written and no line printed. *)
Theorem rookies_bad_data_writes_nothing year w resp v :
  net w rookies_url = Some resp →
  body resp = Some v →
  (∀ d, v = PDict d → ¬ Forall (λ e, rookie_safe e.2) d) →
  (∃ e, (get_rookies year w).1 = Raise e) ∧
  files (get_rookies year w).2 = files w ∧
  stdout (get_rookies year w).2 = stdout w.
Proof.
  intros Hnet Hbody Hbad.
  assert (∃ e, (get_rookies year w).1 = Raise e) as [e He].
  { rewrite get_rookies_pipeline, pipeline_result, Hnet.
    destruct (raise_for_status resp) as [[]|e]; cbn [rbind]; [|by exists e].
    unfold json. rewrite Hbody. cbn [rbind].
    destruct v as [| | | | | |d]; try by exists AttributeError.
    cbn [rbind py_items].
    destruct (comprehension rookie_cond rookie_record d) as [rows|e] eqn:Hc;
      cbn [rbind]; [|by exists e].
    destruct (Hbad d eq_refl).
    apply rookie_comprehension_defined. by exists rows. }
  split; [by exists e|].
  rewrite get_rookies_pipeline in *. by eapply pipeline_failure_clean.
Qed.

Lemma rookies_bad_data_writes_nothing_witness :
  (∃ e, (get_rookies 2024
           (world_of (mkResponse 200 (Some (PDict players_with_scalar))))).1
        = Raise e) ∧
  files (get_rookies 2024
           (world_of (mkResponse 200 (Some (PDict players_with_scalar))))).2
  = ∅ ∧
  stdout (get_rookies 2024
            (world_of (mkResponse 200 (Some (PDict players_with_scalar))))).2
  = [].
Proof.
  apply (rookies_bad_data_writes_nothing 2024
           (world_of (mkResponse 200 (Some (PDict players_with_scalar))))
           (mkResponse 200 (Some (PDict players_with_scalar)))
           (PDict players_with_scalar)).
  - reflexivity.
  - reflexivity.
  - intros d [= <-] Hall.
    apply Forall_cons in Hall as [_ Hall].
    apply Forall_cons in Hall as [(f & Hf & _) _]. discriminate Hf.
Defined.

(** X8. When the status is outside 400..599 and [response.json()] has
    returned a value that is not a mapping (a list, a string, a number,
    [None]), both functions raise [AttributeError] at [data.items()]. *)
Theorem non_mapping_body_raises year w resp v :
  ¬ (400 ≤ status_code resp < 600) →
  body resp = Some v →
  isinstance_dict v = false →
  (net w rookies_url = Some resp →
   (get_rookies year w).1 = Raise AttributeError) ∧
  (net w (team_stats_url year) = Some resp →
   (get_team_offensive_stats year w).1 = Raise AttributeError).
Proof.
  intros Hst%raise_for_status_ok Hbody Hv.
  rewrite get_rookies_pipeline, get_team_offensive_stats_pipeline.
  rewrite !pipeline_result.
  split; intros ->; rewrite Hst; unfold json; rewrite Hbody; by destruct v.
Qed.

Lemma non_mapping_body_raises_witness :
  (get_rookies 2024
     (world_of (mkResponse 200 (Some (PList [PStr "KC"]))))).1
  = Raise AttributeError ∧
  (get_team_offensive_stats 2024
     (world_of (mkResponse 200 (Some (PList [PStr "KC"]))))).1
  = Raise AttributeError.
Proof.
  destruct (non_mapping_body_raises 2024
              (world_of (mkResponse 200 (Some (PList [PStr "KC"]))))
              (mkResponse 200 (Some (PList [PStr "KC"])))
              (PList [PStr "KC"])) as [Hrook Hteam].
  - simpl. lia.
  - reflexivity.
  - reflexivity.
  - split; [apply Hrook|apply Hteam]; reflexivity.
Defined.

(** ** Names of URLs and files *)

Lemma append_cancel_r s1 s2 t : s1 +:+ t = s2 +:+ t → s1 = s2.
Proof.
  assert (∀ s u, String.length (s +:+ u)
                 = (String.length s + String.length u)%nat) as Hlen.
  { intros s u. induction s as [|c s IH]; [done|]. simpl. by rewrite IH. }
  revert s2. induction s1 as [|c1 s1 IH]; intros [|c2 s2] Heq; [done|..].
  - apply (f_equal String.length) in Heq. rewrite !Hlen in Heq.
    simpl in Heq. lia.
  - apply (f_equal String.length) in Heq. rewrite !Hlen in Heq.
    simpl in Heq. lia.
  - injection Heq as -> Heq. by rewrite (IH _ Heq).
Qed.

Lemma pretty_N_go_head x s :
  (0 < x)%N → ∃ c rest, pretty_N_go x s = String c rest ∧ c ≠ "{"%char.
Proof.
  revert s. induction (N.lt_wf_0 x) as [x _ IH]. intros s Hpos.
  rewrite pretty_N_go_step by done.
  destruct (decide (x `div` 10 = 0)%N) as [->|Hdiv].
  - rewrite pretty_N_go_0. eexists _, _. split; [done|].
    unfold pretty_N_char. by repeat case_match.
  - apply IH; [by apply N.div_lt|by apply N.neq_0_lt_0].
Qed.

(** [str(year)] starts with a digit or a minus sign, never a brace. *)
Lemma pretty_Z_head (year : Z) :
  ∃ c rest, pretty year = String c rest ∧ c ≠ "{"%char.
Proof.
  destruct year as [|p|p].
  - by exists "0"%char, "".
  - unfold pretty, pretty_Z, pretty, pretty_positive, pretty, pretty_N.
    case_decide; [done|]. by apply pretty_N_go_head.
  - by exists "-"%char, (pretty p).
Qed.

Lemma team_stats_output_path_eq year :
  team_stats_output_path year
  = "data/raw/sleeper_team_stats_" +:+ pretty year +:+ ".csv".
Proof. reflexivity. Qed.

Lemma team_stats_output_path_inj y1 y2 :
  team_stats_output_path y1 = team_stats_output_path y2 → y1 = y2.
Proof.
  rewrite !team_stats_output_path_eq.
  intros Heq%String.app_inj%append_cancel_r. by apply (inj pretty).
Qed.

(** X9. [get_team_offensive_stats] does use its year: a run that
    returns has fetched [.../stats/nfl/regular/<year>], written
    [data/raw/sleeper_team_stats_<year>.csv] and no other file, and
    printed one line naming the year. *)
Theorem team_stats_year_scoped_io year w df w' :
  get_team_offensive_stats year w = (Ok df, w') →
  requested w'
  = requested w
    ++ ["https://api.sleeper.app/v1/stats/nfl/regular/" +:+ pretty year] ∧
  files w'
  = <["data/raw/sleeper_team_stats_" +:+ pretty year +:+ ".csv" := df]>
      (files w) ∧
  stdout w' = stdout w ++ ["Saved team offensive stats for " +:+ pretty year].
Proof.
  rewrite get_team_offensive_stats_pipeline. intros Hrun.
  apply pipeline_ok_inv in Hrun
    as (resp & d & rows & _ & _ & _ & _ & _ & -> & ->).
  done.
Qed.

Lemma team_stats_year_scoped_io_witness :
  requested (get_team_offensive_stats 2024
               (world_of (mkResponse 200 (Some stats_with_year)))).2
  = [] ++ ["https://api.sleeper.app/v1/stats/nfl/regular/" +:+ pretty 2024] ∧
  files (get_team_offensive_stats 2024
           (world_of (mkResponse 200 (Some stats_with_year)))).2
  = <["data/raw/sleeper_team_stats_" +:+ pretty 2024 +:+ ".csv"
      := teams_kc_buf]> ∅ ∧
  stdout (get_team_offensive_stats 2024
            (world_of (mkResponse 200 (Some stats_with_year)))).2
  = [] ++ ["Saved team offensive stats for " +:+ pretty 2024].
Proof.
  apply (team_stats_year_scoped_io 2024
           (world_of (mkResponse 200 (Some stats_with_year))) teams_kc_buf).
  vm_compute. reflexivity.
Defined.

(** X10. Distinct years give distinct request URLs and distinct output
    paths. *)
Theorem team_stats_names_injective y1 y2 :
  y1 ≠ y2 →
  team_stats_url y1 ≠ team_stats_url y2 ∧
  team_stats_output_path y1 ≠ team_stats_output_path y2.
Proof.
  intros Hne. split; intros Heq; apply Hne.
  - unfold team_stats_url in Heq. apply String.app_inj in Heq.
    by apply (inj pretty).
  - by apply team_stats_output_path_inj.
Qed.

Lemma team_stats_names_injective_witness :
  team_stats_url 2023 ≠ team_stats_url 2024 ∧
  team_stats_output_path 2023 ≠ team_stats_output_path 2024.
Proof. apply (team_stats_names_injective 2023 2024). lia. Defined.

(** X11. Team stats of different years do not overwrite each other:
    after a run for [y1] and then one for [y2 ≠ y1], both files are
    there, each with its own frame. *)
Theorem team_stats_years_coexist y1 y2 w df1 w1 df2 w2 :
  get_team_offensive_stats y1 w = (Ok df1, w1) →
  get_team_offensive_stats y2 w1 = (Ok df2, w2) →
  y1 ≠ y2 →
  files w2 !! team_stats_output_path y1 = Some df1 ∧
  files w2 !! team_stats_output_path y2 = Some df2.
Proof.
  rewrite !get_team_offensive_stats_pipeline. intros Hrun1 Hrun2 Hne.
  apply pipeline_ok_inv in Hrun1
    as (resp1 & d1 & rows1 & _ & _ & _ & _ & _ & -> & ->).
  apply pipeline_ok_inv in Hrun2
    as (resp2 & d2 & rows2 & _ & _ & _ & _ & _ & -> & ->).
  simpl. split; [|apply lookup_insert_eq].
  rewrite lookup_insert_ne; [apply lookup_insert_eq|].
  intros Heq. apply Hne. symmetry. by apply team_stats_output_path_inj.
Qed.

Lemma team_stats_years_coexist_witness :
  let w := world_of (mkResponse 200 (Some stats_with_year)) in
  let r1 := get_team_offensive_stats 2023 w in
  let r2 := get_team_offensive_stats 2024 r1.2 in
  files r2.2 !! team_stats_output_path 2023 = Some (frame_of r1.1) ∧
  files r2.2 !! team_stats_output_path 2024 = Some (frame_of r2.1).
Proof.
  intros w r1 r2.
  apply (team_stats_years_coexist 2023 2024 w (frame_of r1.1) r1.2
           (frame_of r2.1) r2.2).
  - vm_compute. reflexivity.
  - vm_compute. reflexivity.
  - lia.
Defined.



(** X13. The line [get_rookies] prints counts the rows of the returned
    frame and names [rookies_<year>.csv], a file the run has not
    touched: the store at [data/raw/rookies_<year>.csv] is what it was. *)
Theorem rookies_message_names_other_file year w df w' :
  get_rookies year w = (Ok df, w') →
  stdout w'
  = stdout w
    ++ ["Saved " +:+ pretty (Z.of_nat (length (records df)))
        +:+ " rookies (QB, RB, WR, TE) to rookies_" +:+ pretty year
        +:+ ".csv"] ∧
  files w' !! ("data/raw/rookies_" +:+ pretty year +:+ ".csv")
  = files w !! ("data/raw/rookies_" +:+ pretty year +:+ ".csv").
Proof.
  rewrite get_rookies_pipeline. intros Hrun.
  apply pipeline_ok_inv in Hrun
    as (resp & d & rows & _ & _ & _ & _ & _ & -> & ->).
  split; [done|]. simpl. apply lookup_insert_ne.
  destruct (pretty_Z_head year) as (c & rest & Hhead & Hc).
  rewrite Hhead. intros [= Heq]. by apply Hc.
Qed.

Lemma rookies_message_names_other_file_witness :
  stdout (get_rookies 2024
            (world_of (mkResponse 200 (Some players_mixed)))).2
  = [] ++ ["Saved " +:+ pretty (Z.of_nat (length (records rookies_mixed)))
           +:+ " rookies (QB, RB, WR, TE) to rookies_" +:+ pretty 2024
           +:+ ".csv"] ∧
  files (get_rookies 2024
           (world_of (mkResponse 200 (Some players_mixed)))).2
    !! ("data/raw/rookies_" +:+ pretty 2024 +:+ ".csv")
  = (∅ : gmap string DataFrame)
      !! ("data/raw/rookies_" +:+ pretty 2024 +:+ ".csv").
Proof.
  apply (rookies_message_names_other_file 2024
           (world_of (mkResponse 200 (Some players_mixed))) rookies_mixed).
  reflexivity.
Defined.

(** ** Where the team columns come from *)

(** X14. The list of records [get_team_offensive_stats] builds from a
    response mapping, before pandas sees it, is always built, and each
    record is read off one mapping-valued entry: the team is its key,
    [pass_yards_rank], [rush_yards_rank], [rec_yards_rank] and
    [team_td] hold the entry's [pass_yds_rank], [rush_yds_rank],
    [rec_yds_rank] and [td]; the other six stat fields keep their
    names. *)
Theorem team_record_fields year d :
  ∃ team_stats,
    comprehension team_cond (team_record year) d = Ok team_stats ∧
    Forall (λ r, ∃ team f,
              (team, PDict f) ∈ d ∧
              dict_get r "team" = PStr team ∧
              dict_get r "offense_rank" = dict_get f "offense_rank" ∧
              dict_get r "pass_yards_rank" = dict_get f "pass_yds_rank" ∧
              dict_get r "pass_td_rank" = dict_get f "pass_td_rank" ∧
              dict_get r "rush_yards_rank" = dict_get f "rush_yds_rank" ∧
              dict_get r "rush_td_rank" = dict_get f "rush_td_rank" ∧
              dict_get r "rec_yards_rank" = dict_get f "rec_yds_rank" ∧
              dict_get r "rec_td_rank" = dict_get f "rec_td_rank" ∧
              dict_get r "team_td" = dict_get f "td" ∧
              dict_get r "redzone_rank" = dict_get f "redzone_rank" ∧
              dict_get r "redzone_pct" = dict_get f "redzone_pct")
           team_stats.
Proof.
  destruct (team_comprehension_total year d) as [rows Hc].
  exists rows. split; [done|].
  eapply Forall_impl; [by apply comprehension_rows|].
  intros r ([team stats] & Hin & Hcond & Hr); simpl in *.
  apply team_cond_true in Hcond as [f ->].
  rewrite team_record_dict in Hr. injection Hr as <-.
  exists team, f. by repeat split.
Qed.

Example team_record_renames :
  comprehension team_cond (team_record 2024) stats_renamed
  = Ok [[("team", PStr "KC"); ("year", PInt 2024); ("offense_rank", PNone);
         ("pass_yards_rank", PInt 3); ("pass_td_rank", PNone);
         ("rush_yards_rank", PNone); ("rush_td_rank", PNone);
         ("rec_yards_rank", PNone); ("rec_td_rank", PNone);
         ("team_td", PInt 55); ("redzone_rank", PNone);
         ("redzone_pct", PNone)]].
Proof. reflexivity. Qed.

(** ** Sizes *)

(** X15. The rookie frame has no more rows than the response has
    entries; the team frame has exactly one row per mapping-valued
    entry. *)
Theorem row_counts year w resp d df w' :
  body resp = Some (PDict d) →
  (net w rookies_url = Some resp →
   get_rookies year w = (Ok df, w') →
   (length (records df) ≤ length d)%nat) ∧
  (net w (team_stats_url year) = Some resp →
   get_team_offensive_stats year w = (Ok df, w') →
   length (records df) = length (filter (λ e, isinstance_dict e.2) d)).
Proof.
  intros Hbody.
  rewrite get_rookies_pipeline, get_team_offensive_stats_pipeline.
  split; intros Hnet Hrun;
    apply pipeline_ok_inv in Hrun
      as (resp' & d' & rows & Hnet' & _ & Hbody' & Hc & _ & -> & _);
    assert (d' = d) as -> by congruence; simpl;
    destruct (comprehension_inv _ _ _ _ Hc) as [_ Hf];
    apply Forall2_length in Hf; rewrite <- Hf.
  - apply length_filter.
  - f_equal. apply list_filter_iff. intros e. apply keeps_team_cond.
Qed.

Lemma row_counts_witness :
  (length (records rookies_mixed) ≤ length players_mixed_items)%nat.
Proof.
  pose (w := world_of (mkResponse 200 (Some players_mixed))).
  assert (Hb : body (mkResponse 200 (Some players_mixed))
               = Some (PDict players_mixed_items)) by reflexivity.
  destruct (row_counts 2024 w _ _ rookies_mixed
              (get_rookies 2024 w).2 Hb) as [Hrook _].
  apply Hrook; reflexivity.
Defined.
